(** * odin-data: frame decoder, plugin registry and compression settings

    A shallow embedding of the frame-receiver decoder base class
    ([frameReceiver/src/FrameDecoder.cpp]), of the dummy TCP decoder
    ([DummyTCPFrameDecoder.cpp]) and of the parts of the frame-processor
    that the plugin headers declare, together with the properties that the
    design description states about them.

    C++ objects are records, member functions are functions from the object
    state to the new object state.  What a member function does to the
    outside world (a log line, a call of the frame-ready callback) is
    returned as a list of [Effect]s, in the order the calls are made. *)

From Stdlib Require Import ZArith NArith List Bool.
From stdpp Require Import base option list strings pretty gmap fin_maps.

Open Scope string_scope.
Open Scope list_scope.

(** ** Parameter messages (OdinData::IpcMessage) *)

Module OdinData.

(** Modelled from the spec: [IpcMessage] is declared in
    [common/include/IpcMessage.h], which is not part of the sources at hand.
    The design description calls it a structured parameter message with
    named key/value pairs, the keys namespaced by a caller-supplied prefix;
    a key that is missing keeps the current value of the setting.  The
    values are the scalar kinds the decoder and the plugins exchange. *)
Inductive ParamValue : Type :=
  | PBool (b : bool)
  | PUInt (n : N)
  | PInt (z : Z)
  | PString (s : string).

Abbreviation IpcMessage := (gmap string ParamValue).

(** The template parameter of [get_param<T>] and the overloads of
    [set_param]: how a C++ type is stored in, and read back from, a
    parameter value. *)
Class ParamType (T : Type) : Type := {
  to_param : T -> ParamValue;
  of_param : ParamValue -> option T
}.

#[global] Instance ParamType_bool : ParamType bool := {|
  to_param := PBool;
  of_param := fun v => match v with PBool b => Some b | _ => None end
|}.

(** [unsigned int] *)
#[global] Instance ParamType_uint : ParamType N := {|
  to_param := PUInt;
  of_param := fun v => match v with PUInt n => Some n | _ => None end
|}.

(** Modelled from the spec: [IpcMessage::get_param<T>(name, default)], the
    value stored under [name] when there is one of type [T], the default
    otherwise. *)
Definition get_param {T : Type} `{ParamType T}
    (msg : IpcMessage) (param_name : string) (default_value : T) : T :=
  match msg !! param_name with
  | Some v => match of_param v with
              | Some x => x
              | None => default_value
              end
  | None => default_value
  end.

(** Modelled from the spec: [IpcMessage::set_param(name, value)] stores the
    value under [name], replacing what was there. *)
Definition set_param {T : Type} `{ParamType T}
    (param_name : string) (param_value : T) (msg : IpcMessage) : IpcMessage :=
  <[param_name := to_param param_value]> msg.

End OdinData.

(** ** The frame receiver *)

Module FrameReceiver.

Import OdinData.

(** A [LoggerPtr] is null or the logger that [Logger::getLogger] returns for
    a name. *)
Definition LoggerPtr : Type := option string.

(** [OdinData::SharedBufferManagerPtr]: null or a buffer manager, known by
    its identity only. *)
Definition SharedBufferManagerPtr : Type := option nat.

(** [FrameReadyCallback]: an empty function object or a callable, known by
    its identity only; it is called with a buffer id and a frame number. *)
Definition FrameReadyCallback : Type := option nat.

Inductive LogLevel : Type := INFO | WARN.

(** What a member function does outside the decoder object. *)
Inductive Effect : Type :=
  | Log (level : LogLevel) (logger : LoggerPtr) (message : string)
  | FrameReady (callback : FrameReadyCallback) (buffer_id frame_number : Z).

(** Modelled from the spec: the entry type of [FrameBufferMap] is declared
    in [FrameDecoder.h], which is not part of the sources at hand.  The
    design description maps an in-flight frame identity to the buffer id,
    the arrival timestamp and the count of received packets. *)
Record FrameBufferEntry : Type := {
  entry_buffer_id : Z;
  entry_arrival_ms : Z;
  entry_packets_received : N
}.

(** [EmptyBufferQueue] is a [std::queue<int>]: front of the queue at the
    head of the list, [push] at the tail. *)
Abbreviation EmptyBufferQueue := (list Z).
Abbreviation FrameBufferMap := (gmap Z FrameBufferEntry).

(** The member variables of [FrameDecoder].  [frame_timeout_ms_] and
    [frames_timedout_] are [unsigned int]; the code below stores and returns
    them and does no arithmetic on them. *)
Record FrameDecoder : Type := {
  logger_ : LoggerPtr;
  packet_logger_ : LoggerPtr;
  enable_packet_logging_ : bool;
  frame_timeout_ms_ : N;
  frames_timedout_ : N;
  buffer_manager_ : SharedBufferManagerPtr;
  ready_callback_ : FrameReadyCallback;
  empty_buffer_queue_ : EmptyBufferQueue;
  frame_buffer_map_ : FrameBufferMap
}.

Definition set_logger (l : LoggerPtr) (d : FrameDecoder) : FrameDecoder :=
  {| logger_ := l;
     packet_logger_ := packet_logger_ d;
     enable_packet_logging_ := enable_packet_logging_ d;
     frame_timeout_ms_ := frame_timeout_ms_ d;
     frames_timedout_ := frames_timedout_ d;
     buffer_manager_ := buffer_manager_ d;
     ready_callback_ := ready_callback_ d;
     empty_buffer_queue_ := empty_buffer_queue_ d;
     frame_buffer_map_ := frame_buffer_map_ d |}.

Definition set_packet_logger (l : LoggerPtr) (d : FrameDecoder) : FrameDecoder :=
  {| logger_ := logger_ d;
     packet_logger_ := l;
     enable_packet_logging_ := enable_packet_logging_ d;
     frame_timeout_ms_ := frame_timeout_ms_ d;
     frames_timedout_ := frames_timedout_ d;
     buffer_manager_ := buffer_manager_ d;
     ready_callback_ := ready_callback_ d;
     empty_buffer_queue_ := empty_buffer_queue_ d;
     frame_buffer_map_ := frame_buffer_map_ d |}.

Definition set_enable_packet_logging (b : bool) (d : FrameDecoder) : FrameDecoder :=
  {| logger_ := logger_ d;
     packet_logger_ := packet_logger_ d;
     enable_packet_logging_ := b;
     frame_timeout_ms_ := frame_timeout_ms_ d;
     frames_timedout_ := frames_timedout_ d;
     buffer_manager_ := buffer_manager_ d;
     ready_callback_ := ready_callback_ d;
     empty_buffer_queue_ := empty_buffer_queue_ d;
     frame_buffer_map_ := frame_buffer_map_ d |}.

Definition set_frame_timeout_ms (n : N) (d : FrameDecoder) : FrameDecoder :=
  {| logger_ := logger_ d;
     packet_logger_ := packet_logger_ d;
     enable_packet_logging_ := enable_packet_logging_ d;
     frame_timeout_ms_ := n;
     frames_timedout_ := frames_timedout_ d;
     buffer_manager_ := buffer_manager_ d;
     ready_callback_ := ready_callback_ d;
     empty_buffer_queue_ := empty_buffer_queue_ d;
     frame_buffer_map_ := frame_buffer_map_ d |}.

Definition set_buffer_manager (m : SharedBufferManagerPtr) (d : FrameDecoder)
    : FrameDecoder :=
  {| logger_ := logger_ d;
     packet_logger_ := packet_logger_ d;
     enable_packet_logging_ := enable_packet_logging_ d;
     frame_timeout_ms_ := frame_timeout_ms_ d;
     frames_timedout_ := frames_timedout_ d;
     buffer_manager_ := m;
     ready_callback_ := ready_callback_ d;
     empty_buffer_queue_ := empty_buffer_queue_ d;
     frame_buffer_map_ := frame_buffer_map_ d |}.

Definition set_ready_callback (c : FrameReadyCallback) (d : FrameDecoder)
    : FrameDecoder :=
  {| logger_ := logger_ d;
     packet_logger_ := packet_logger_ d;
     enable_packet_logging_ := enable_packet_logging_ d;
     frame_timeout_ms_ := frame_timeout_ms_ d;
     frames_timedout_ := frames_timedout_ d;
     buffer_manager_ := buffer_manager_ d;
     ready_callback_ := c;
     empty_buffer_queue_ := empty_buffer_queue_ d;
     frame_buffer_map_ := frame_buffer_map_ d |}.

Definition set_empty_buffer_queue (q : EmptyBufferQueue) (d : FrameDecoder)
    : FrameDecoder :=
  {| logger_ := logger_ d;
     packet_logger_ := packet_logger_ d;
     enable_packet_logging_ := enable_packet_logging_ d;
     frame_timeout_ms_ := frame_timeout_ms_ d;
     frames_timedout_ := frames_timedout_ d;
     buffer_manager_ := buffer_manager_ d;
     ready_callback_ := ready_callback_ d;
     empty_buffer_queue_ := q;
     frame_buffer_map_ := frame_buffer_map_ d |}.

Definition set_frame_buffer_map (m : FrameBufferMap) (d : FrameDecoder)
    : FrameDecoder :=
  {| logger_ := logger_ d;
     packet_logger_ := packet_logger_ d;
     enable_packet_logging_ := enable_packet_logging_ d;
     frame_timeout_ms_ := frame_timeout_ms_ d;
     frames_timedout_ := frames_timedout_ d;
     buffer_manager_ := buffer_manager_ d;
     ready_callback_ := ready_callback_ d;
     empty_buffer_queue_ := empty_buffer_queue_ d;
     frame_buffer_map_ := m |}.

(** *** Member functions that act on the world

    [Method St A] is a member function of a class with state [St] that
    returns an [A]: from the object state to the result, the new object
    state and the effects, oldest first. *)
Definition Method (St A : Type) : Type := St -> A * St * list Effect.

#[global] Instance Method_ret {St : Type} : MRet (Method St) :=
  fun A (a : A) d => (a, d, []).

#[global] Instance Method_bind {St : Type} : MBind (Method St) :=
  fun A B (k : A -> Method St B) (m : Method St A) d =>
    let '(a, d1, e1) := m d in
    let '(b, d2, e2) := k a d1 in
    (b, d2, e1 ++ e2).

Definition this {St : Type} : Method St St := fun d => (d, d, []).

Definition assign {St : Type} (f : St -> St) : Method St unit :=
  fun d => (tt, f d, []).

Definition emit {St : Type} (e : Effect) : Method St unit :=
  fun d => (tt, d, [e]).

(** [if (c) { body }] *)
Definition when {St : Type} (c : bool) (body : Method St unit)
    : Method St unit :=
  if c then body else mret tt.

Definition state_after {St A : Type} (r : A * St * list Effect) : St :=
  snd (fst r).
Definition effects_of {St A : Type} (r : A * St * list Effect)
    : list Effect := snd r.
Definition result_of {St A : Type} (r : A * St * list Effect) : A :=
  fst (fst r).

(** [LOG4CXX_INFO(logger, message)] and [LOG4CXX_WARN(logger, message)] *)
Definition LOG4CXX_INFO {St : Type} (logger : LoggerPtr) (message : string)
    : Method St unit :=
  emit (Log INFO logger message).
Definition LOG4CXX_WARN {St : Type} (logger : LoggerPtr) (message : string)
    : Method St unit :=
  emit (Log WARN logger message).

(** [std::queue::empty], [std::queue::size], [std::queue::push] and the
    same for [std::map]. *)
Definition queue_empty (q : EmptyBufferQueue) : bool :=
  match q with [] => true | _ :: _ => false end.
Definition queue_size (q : EmptyBufferQueue) : nat := length q.
Definition queue_push (x : Z) (q : EmptyBufferQueue) : EmptyBufferQueue :=
  q ++ [x].
Definition map_empty (m : FrameBufferMap) : bool := bool_decide (m = ∅).
Definition map_size (m : FrameBufferMap) : nat := size m.

Section Decoder.

(** [FrameReceiver::Defaults] is declared in [FrameReceiverDefaults.h], which
    is not part of the sources at hand: the two defaults are parameters. *)
Variable default_enable_packet_logging : bool.
Variable default_frame_timeout_ms : N.

(** [FrameDecoder::FrameDecoder()] *)
Definition FrameDecoder_new : FrameDecoder :=
  {| logger_ := None;
     packet_logger_ := None;
     enable_packet_logging_ := default_enable_packet_logging;
     frame_timeout_ms_ := default_frame_timeout_ms;
     frames_timedout_ := 0%N;
     buffer_manager_ := None;
     ready_callback_ := None;
     empty_buffer_queue_ := [];
     frame_buffer_map_ := ∅ |}.

End Decoder.

(** Modelled from the spec: the two parameter names are macros of
    [FrameDecoder.h], which is not part of the sources at hand; the design
    description names the decoder's configuration keys. *)
Definition CONFIG_DECODER_ENABLE_PACKET_LOGGING : string :=
  "enable_packet_logging".
Definition CONFIG_DECODER_FRAME_TIMEOUT_MS : string := "frame_timeout_ms".

(** [FrameDecoder::init] *)
Definition init (logger : LoggerPtr) (config_msg : IpcMessage)
    (d : FrameDecoder) : FrameDecoder :=
  let d := set_logger logger d in
  let d := set_enable_packet_logging
             (get_param config_msg CONFIG_DECODER_ENABLE_PACKET_LOGGING
                (enable_packet_logging_ d)) d in
  let d := set_frame_timeout_ms
             (get_param config_msg CONFIG_DECODER_FRAME_TIMEOUT_MS
                (frame_timeout_ms_ d)) d in
  set_packet_logger (Some "FR.PacketLogger") d.

(** [FrameDecoder::request_configuration]: the reply message is an in-out
    argument, the decoder is only read. *)
Definition request_configuration (param_prefix : string)
    (config_reply : IpcMessage) (d : FrameDecoder) : IpcMessage :=
  let config_reply :=
    set_param (param_prefix +:+ CONFIG_DECODER_ENABLE_PACKET_LOGGING)
      (enable_packet_logging_ d) config_reply in
  set_param (param_prefix +:+ CONFIG_DECODER_FRAME_TIMEOUT_MS)
    (frame_timeout_ms_ d) config_reply.

(** [FrameDecoder::register_buffer_manager] *)
Definition register_buffer_manager (buffer_manager : SharedBufferManagerPtr)
    (d : FrameDecoder) : FrameDecoder :=
  set_buffer_manager buffer_manager d.

(** [FrameDecoder::register_frame_ready_callback] *)
Definition register_frame_ready_callback (callback : FrameReadyCallback)
    (d : FrameDecoder) : FrameDecoder :=
  set_ready_callback callback d.

(** [FrameDecoder::push_empty_buffer] *)
Definition push_empty_buffer (buffer_id : Z) (d : FrameDecoder)
    : FrameDecoder :=
  set_empty_buffer_queue (queue_push buffer_id (empty_buffer_queue_ d)) d.

(** [FrameDecoder::get_num_empty_buffers] *)
Definition get_num_empty_buffers (d : FrameDecoder) : nat :=
  queue_size (empty_buffer_queue_ d).

(** [FrameDecoder::get_num_mapped_buffers] *)
Definition get_num_mapped_buffers (d : FrameDecoder) : nat :=
  map_size (frame_buffer_map_ d).

(** [FrameDecoder::get_frame_timeout_ms] *)
Definition get_frame_timeout_ms (d : FrameDecoder) : N := frame_timeout_ms_ d.

(** [FrameDecoder::get_num_frames_timedout] *)
Definition get_num_frames_timedout (d : FrameDecoder) : N := frames_timedout_ d.

(** [FrameDecoder::drop_all_buffers]: each container is swapped with a
    freshly constructed, empty one when it is not empty already. *)
Definition drop_all_buffers : Method FrameDecoder unit :=
  (d ← this;
   when (negb (queue_empty (empty_buffer_queue_ d)))
     (LOG4CXX_INFO (logger_ d)
        ("Dropping " +:+ pretty (queue_size (empty_buffer_queue_ d))
         +:+ " buffers from empty buffer queue");;
      assign (set_empty_buffer_queue [])));;
  (d ← this;
   when (negb (map_empty (frame_buffer_map_ d)))
     (LOG4CXX_WARN (logger_ d)
        ("Dropping " +:+ pretty (map_size (frame_buffer_map_ d))
         +:+ " unreleased buffers from decoder - possible data loss");;
      assign (set_frame_buffer_map ∅))).

(** Modelled from the spec: the code that takes a buffer off the empty
    buffer queue lives in the transport-specific decoders, which are not
    part of the sources at hand.  The design description has each new frame
    identity pull one slot from the queue and create a frame buffer map
    entry with the current timestamp; on an empty queue the acquisition
    fails with a backpressure signal ([None]) and changes nothing. *)
Definition acquire_empty_buffer (frame_number now_ms : Z) (d : FrameDecoder)
    : option Z * FrameDecoder :=
  match empty_buffer_queue_ d with
  | [] => (None, d)
  | buffer_id :: rest =>
      (Some buffer_id,
       set_frame_buffer_map
         (<[frame_number := {| entry_buffer_id := buffer_id;
                               entry_arrival_ms := now_ms;
                               entry_packets_received := 0%N |}]>
            (frame_buffer_map_ d))
         (set_empty_buffer_queue rest d))
  end.

(** A caller's use of the empty buffer queue: buffers handed back and
    buffers acquired for a frame at a time. *)
Inductive QueueOp : Type :=
  | Push (buffer_id : Z)
  | Acquire (frame_number now_ms : Z).

(** Runs the calls in order; returns the buffer ids the acquisitions
    obtained, in the order they were obtained. *)
Fixpoint run_ops (ops : list QueueOp) (d : FrameDecoder)
    : list Z * FrameDecoder :=
  match ops with
  | [] => ([], d)
  | Push buffer_id :: ops' => run_ops ops' (push_empty_buffer buffer_id d)
  | Acquire frame_number now_ms :: ops' =>
      match acquire_empty_buffer frame_number now_ms d with
      | (Some buffer_id, d') =>
          let '(got, d'') := run_ops ops' d' in (buffer_id :: got, d'')
      | (None, d') => run_ops ops' d'
      end
  end.

Definition pushed (ops : list QueueOp) : list Z :=
  omap (fun op => match op with Push b => Some b | Acquire _ _ => None end) ops.

(** *** The dummy TCP decoder *)

(** Modelled from the spec: [FrameDecoder::FrameReceiveState] is declared in
    [FrameDecoder.h], which is not part of the sources at hand.  The design
    description has [process_message] return one of: incomplete, complete,
    complete with missing frames, invalid. *)
Inductive FrameReceiveState : Type :=
  | FrameReceiveStateIncomplete
  | FrameReceiveStateComplete
  | FrameReceiveStateCompleteMissingFrames
  | FrameReceiveStateInvalid.

(** [DummyTCPFrameDecoder], a [FrameDecoderTCP], itself a [FrameDecoder].
    The two raw buffers belong to [FrameDecoderTCP]; each is known by the
    size of the array it points to, 0 when there is none. *)
Record DummyTCPFrameDecoder : Type := {
  base : FrameDecoder;
  current_raw_buffer_ : nat;
  dropped_frame_buffer_ : nat;
  current_frame_number_ : Z;
  current_frame_buffer_id_ : Z
}.

Definition set_base (b : FrameDecoder) (d : DummyTCPFrameDecoder)
    : DummyTCPFrameDecoder :=
  {| base := b;
     current_raw_buffer_ := current_raw_buffer_ d;
     dropped_frame_buffer_ := dropped_frame_buffer_ d;
     current_frame_number_ := current_frame_number_ d;
     current_frame_buffer_id_ := current_frame_buffer_id_ d |}.

Section DummyTCP.

Variable default_enable_packet_logging : bool.
Variable default_frame_timeout_ms : N.

(** [ODIN_DATA_VERSION_STR] comes from the generated [version.h]. *)
Variable ODIN_DATA_VERSION_STR : string.

(** [DummyTCPFrameDecoder::get_version_long] *)
Definition get_version_long : string := ODIN_DATA_VERSION_STR.

(** [DummyTCPFrameDecoder::DummyTCPFrameDecoder()], as a method on the
    object the base class constructors leave. *)
Definition DummyTCPFrameDecoder_ctor : Method DummyTCPFrameDecoder unit :=
  assign (fun d =>
    {| base := base d;
       current_raw_buffer_ := 30;
       dropped_frame_buffer_ := 30;
       current_frame_number_ := current_frame_number_ d;
       current_frame_buffer_id_ := current_frame_buffer_id_ d |});;
  assign (fun d => set_base (set_logger (Some "FR.DummyTCPFrameDecoder") (base d)) d);;
  d ← this;
  LOG4CXX_INFO (logger_ (base d))
    ("DummyFrameDecoderTCP version " +:+ get_version_long +:+ " loaded").

Definition DummyTCPFrameDecoder_new : unit * DummyTCPFrameDecoder * list Effect :=
  DummyTCPFrameDecoder_ctor
    {| base := FrameDecoder_new default_enable_packet_logging
                 default_frame_timeout_ms;
       current_raw_buffer_ := 0;
       dropped_frame_buffer_ := 0;
       current_frame_number_ := -1;
       current_frame_buffer_id_ := -1 |}.

End DummyTCP.

(** [DummyTCPFrameDecoder::get_next_message_buffer] *)
Definition get_next_message_buffer : Method DummyTCPFrameDecoder nat :=
  d ← this;
  LOG4CXX_INFO (logger_ (base d)) "get_next_message_buffer_ ";;
  mret (current_raw_buffer_ d).

(** [DummyTCPFrameDecoder::process_message] *)
Definition process_message (bytes_received : N)
    : Method DummyTCPFrameDecoder FrameReceiveState :=
  mret FrameReceiveStateComplete.

(** [DummyTCPFrameDecoder::get_frame_buffer_size] *)
Definition get_frame_buffer_size (d : DummyTCPFrameDecoder) : nat := 30.

(** [DummyTCPFrameDecoder::get_frame_header_size] *)
Definition get_frame_header_size (d : DummyTCPFrameDecoder) : nat := 0.

(** [DummyTCPFrameDecoder::monitor_buffers]: the body is empty. *)
Definition monitor_buffers : Method DummyTCPFrameDecoder unit := mret tt.

(** [DummyTCPFrameDecoder::get_status]: the body is empty. *)
Definition get_status (param_prefix : string) (status_msg : IpcMessage)
    (d : DummyTCPFrameDecoder) : IpcMessage := status_msg.

(** *** The readings of the design description that are put to the test *)

(** The number a parameter value stands for, when it is one. *)
Definition numeric_value (v : ParamValue) : option Z :=
  match v with
  | PUInt n => Some (Z.of_N n)
  | PInt z => Some z
  | PBool _ | PString _ => None
  end.

(** The reply reports the number [x] under some name behind the prefix. *)
Definition reports (reply : IpcMessage) (param_prefix : string) (x : Z) : Prop :=
  exists (name : string) (v : ParamValue),
    reply !! (param_prefix +:+ name) = Some v /\ numeric_value v = Some x.

(** The reading of [request_configuration] that has the reply carry the
    counters next to the settings. *)
Definition reply_has_settings_and_counters (param_prefix : string)
    (reply : IpcMessage) (d : FrameDecoder) : Prop :=
  reply !! (param_prefix +:+ CONFIG_DECODER_ENABLE_PACKET_LOGGING) =
    Some (PBool (enable_packet_logging_ d)) /\
  reply !! (param_prefix +:+ CONFIG_DECODER_FRAME_TIMEOUT_MS) =
    Some (PUInt (frame_timeout_ms_ d)) /\
  reports reply param_prefix (Z.of_N (get_num_frames_timedout d)) /\
  reports reply param_prefix (Z.of_nat (get_num_mapped_buffers d)) /\
  reports reply param_prefix (Z.of_nat (get_num_empty_buffers d)).

(** A decoder with 7 timed-out frames, 2 mapped and 3 empty buffers. *)
Definition busy_decoder : FrameDecoder :=
  {| logger_ := Some "FR.DummyTCPFrameDecoder";
     packet_logger_ := Some "FR.PacketLogger";
     enable_packet_logging_ := false;
     frame_timeout_ms_ := 1000%N;
     frames_timedout_ := 7%N;
     buffer_manager_ := Some 0;
     ready_callback_ := Some 0;
     empty_buffer_queue_ := [4%Z; 5%Z; 6%Z];
     frame_buffer_map_ :=
       {[ 11%Z := {| entry_buffer_id := 0; entry_arrival_ms := 0;
                     entry_packets_received := 1 |};
          12%Z := {| entry_buffer_id := 1; entry_arrival_ms := 20;
                     entry_packets_received := 3 |} ]} |}.

(** An entry has timed out at [now_ms] when its age exceeds the frame
    timeout. *)
Definition timed_out (now_ms : Z) (d : FrameDecoder) (e : FrameBufferEntry)
    : Prop :=
  (now_ms - entry_arrival_ms e > Z.of_N (frame_timeout_ms_ d))%Z.


(** The reading of [process_message] that has it reject the repeat of a
    message that completed a frame. *)
Definition rejects_duplicate (bytes_received : N) (d : DummyTCPFrameDecoder)
    : Prop :=
  let first := process_message bytes_received d in
  result_of first = FrameReceiveStateComplete ->
  result_of (process_message bytes_received (state_after first)) =
    FrameReceiveStateInvalid.

(** A dummy decoder around [busy_decoder]; frame 11 arrived at 0 ms. *)
Definition busy_dummy_decoder : DummyTCPFrameDecoder :=
  {| base := busy_decoder;
     current_raw_buffer_ := 30;
     dropped_frame_buffer_ := 30;
     current_frame_number_ := -1;
     current_frame_buffer_id_ := -1 |}.

(** *** Runs of calls on a decoder *)

Section DummyTCPVersion.

(** The version macros come from the generated [version.h]. *)
Variable ODIN_DATA_VERSION_MAJOR : Z.
Variable ODIN_DATA_VERSION_MINOR : Z.
Variable ODIN_DATA_VERSION_PATCH : Z.
Variable ODIN_DATA_VERSION_STR_SHORT : string.

(** [DummyTCPFrameDecoder::get_version_major] and the like. *)
Definition get_version_major : Z := ODIN_DATA_VERSION_MAJOR.
Definition get_version_minor : Z := ODIN_DATA_VERSION_MINOR.
Definition get_version_patch : Z := ODIN_DATA_VERSION_PATCH.
Definition get_version_short : string := ODIN_DATA_VERSION_STR_SHORT.

End DummyTCPVersion.

(** A member function of [FrameDecoder] called on a dummy TCP decoder: it
    acts on the base class members and leaves the others. *)
Definition on_base {A : Type} (m : Method FrameDecoder A)
    : Method DummyTCPFrameDecoder A :=
  fun d => let '(a, b, e) := m (base d) in (a, set_base b d, e).

(** The member functions that [FrameDecoder.cpp] and
    [DummyTCPFrameDecoder.cpp] define and that change or use the decoder,
    as calls with their arguments. *)
Inductive DecoderCall : Type :=
  | CallInit (logger : LoggerPtr) (config_msg : IpcMessage)
  | CallRegisterBufferManager (buffer_manager : SharedBufferManagerPtr)
  | CallRegisterFrameReadyCallback (callback : FrameReadyCallback)
  | CallPushEmptyBuffer (buffer_id : Z)
  | CallDropAllBuffers
  | CallGetNextMessageBuffer
  | CallProcessMessage (bytes_received : N)
  | CallMonitorBuffers.

Definition call (c : DecoderCall) : Method DummyTCPFrameDecoder unit :=
  match c with
  | CallInit logger config_msg => on_base (assign (init logger config_msg))
  | CallRegisterBufferManager buffer_manager =>
      on_base (assign (register_buffer_manager buffer_manager))
  | CallRegisterFrameReadyCallback callback =>
      on_base (assign (register_frame_ready_callback callback))
  | CallPushEmptyBuffer buffer_id =>
      on_base (assign (push_empty_buffer buffer_id))
  | CallDropAllBuffers => on_base drop_all_buffers
  | CallGetNextMessageBuffer => get_next_message_buffer;; mret tt
  | CallProcessMessage bytes_received =>
      process_message bytes_received;; mret tt
  | CallMonitorBuffers => monitor_buffers
  end.

(** The calls made one after the other. *)
Fixpoint run_calls (calls : list DecoderCall)
    : Method DummyTCPFrameDecoder unit :=
  match calls with
  | [] => mret tt
  | c :: calls' => call c;; run_calls calls'
  end.

(** The buffer ids that the calls push, in order. *)
Definition pushed_ids (calls : list DecoderCall) : list Z :=
  omap (fun c => match c with
                 | CallPushEmptyBuffer b => Some b
                 | _ => None
                 end) calls.

(** The callbacks and the buffer managers that the calls register, in
    order. *)
Definition registered_callbacks (calls : list DecoderCall)
    : list FrameReadyCallback :=
  omap (fun c => match c with
                 | CallRegisterFrameReadyCallback cb => Some cb
                 | _ => None
                 end) calls.

Definition registered_buffer_managers (calls : list DecoderCall)
    : list SharedBufferManagerPtr :=
  omap (fun c => match c with
                 | CallRegisterBufferManager m => Some m
                 | _ => None
                 end) calls.

Definition is_init (c : DecoderCall) : bool :=
  match c with CallInit _ _ => true | _ => false end.

Definition is_drop (c : DecoderCall) : bool :=
  match c with CallDropAllBuffers => true | _ => false end.

Definition is_log (e : Effect) : bool :=
  match e with Log _ _ _ => true | FrameReady _ _ _ => false end.

(** The log lines of [drop_all_buffers], from the public counts. *)
Definition drop_all_buffers_log (d : FrameDecoder) : list Effect :=
  (if decide (get_num_empty_buffers d = 0) then []
   else [Log INFO (logger_ d)
           ("Dropping " +:+ pretty (get_num_empty_buffers d)
            +:+ " buffers from empty buffer queue")]) ++
  (if decide (get_num_mapped_buffers d = 0) then []
   else [Log WARN (logger_ d)
           ("Dropping " +:+ pretty (get_num_mapped_buffers d)
            +:+ " unreleased buffers from decoder - possible data loss")]).

(** *** The timeout scan of a decoder that maps frames *)

Module ProtocolEngine.

(** [frames_timedout_] is an [unsigned int]: incrementing it wraps at
    2^32. *)
Definition UINT_MODULUS : N := 2 ^ 32.

Definition uint_succ (n : N) : N := ((n + 1) mod UINT_MODULUS)%N.

Definition set_frames_timedout (n : N) (d : FrameDecoder) : FrameDecoder :=
  {| logger_ := logger_ d;
     packet_logger_ := packet_logger_ d;
     enable_packet_logging_ := enable_packet_logging_ d;
     frame_timeout_ms_ := frame_timeout_ms_ d;
     frames_timedout_ := n;
     buffer_manager_ := buffer_manager_ d;
     ready_callback_ := ready_callback_ d;
     empty_buffer_queue_ := empty_buffer_queue_ d;
     frame_buffer_map_ := frame_buffer_map_ d |}.

#[global] Instance timed_out_dec (now_ms : Z) (d : FrameDecoder)
    (e : FrameBufferEntry) : Decision (timed_out now_ms d e) :=
  Z_gt_dec _ _.

(** The entries of the frame buffer map whose age exceeds the timeout. *)
Definition timed_out_frames (now_ms : Z) (d : FrameDecoder)
    : list (Z * FrameBufferEntry) :=
  filter (fun fe => timed_out now_ms d (snd fe))
         (map_to_list (frame_buffer_map_ d)).

(** Modelled from the spec: the decoders that map frames and scan them for
    timeouts are the transport-specific ones, which are not part of the
    sources at hand.  The design description has every entry whose age
    exceeds [frame_timeout_ms] forcibly completed as complete with missing
    frames: [frames_timedout_] is incremented, the entry is removed from
    the frame buffer map and the buffer is handed to the frame-ready
    callback; the buffer is not returned to the empty buffer queue. *)
Definition complete_timed_out_frame (frame_number : Z) (e : FrameBufferEntry)
    : Method FrameDecoder FrameReceiveState :=
  d ← this;
  assign (set_frames_timedout (uint_succ (frames_timedout_ d)));;
  assign (fun d' =>
    set_frame_buffer_map (delete frame_number (frame_buffer_map_ d')) d');;
  emit (FrameReady (ready_callback_ d) (entry_buffer_id e) frame_number);;
  mret FrameReceiveStateCompleteMissingFrames.

Fixpoint complete_all (stale : list (Z * FrameBufferEntry))
    : Method FrameDecoder (list (Z * FrameReceiveState)) :=
  match stale with
  | [] => mret []
  | (frame_number, e) :: rest =>
      s ← complete_timed_out_frame frame_number e;
      completed ← complete_all rest;
      mret ((frame_number, s) :: completed)
  end.

(** Modelled from the spec: [monitor_buffers] at the time [now_ms], the
    clock being read by the caller; it returns the frames it completed. *)
Definition monitor_buffers (now_ms : Z)
    : Method FrameDecoder (list (Z * FrameReceiveState)) :=
  d ← this;
  complete_all (timed_out_frames now_ms d).

End ProtocolEngine.

End FrameReceiver.

(** ** The frame processor *)

Module FrameProcessor.

Import OdinData.

(** [FrameProcessorDefinitions.h] *)
Inductive PixelType : Type :=
  | pixel_raw_8bit | pixel_raw_16bit | pixel_float32 | pixel_raw_64bit.

Inductive CompressionType : Type := no_compression | lz4 | bslz4 | blosc.

Inductive ProcessFrameStatus : Type :=
  | status_ok | status_complete | status_complete_missing_frames
  | status_invalid.

Record DatasetDefinition : Type := {
  name : string;
  pixel : PixelType;
  num_frames : N;
  frame_dimensions : list N;
  chunks : list N;
  compression : CompressionType
}.

(** *** The plugin registry *)

(** Modelled from the spec: the [REGISTER] macro and the class loader behind
    it are declared in [ClassLoader.h], which is not part of the sources at
    hand.  The design description has a registry entry map a name to a
    factory producing a stage instance, the names unique within a registry;
    [register(name, factory)] adds an entry and [create(name)] fails with
    [UnknownPluginName] when the name is absent and returns a new stage
    instance otherwise.  A factory is known by the class it constructs, an
    instance by its class and by the number of instances made before it. *)
Record Factory : Type := { factory_class : string }.

Record StageInstance : Type := {
  instance_class : string;
  instance_id : nat
}.

Inductive ConfigurationError : Type :=
  | UnknownPluginName (plugin_name : string).

Record PluginRegistry : Type := {
  factories : gmap string Factory;
  instances_made : nat
}.

Definition empty_registry : PluginRegistry :=
  {| factories := ∅; instances_made := 0 |}.

Definition register (plugin_name : string) (factory : Factory)
    (reg : PluginRegistry) : PluginRegistry :=
  {| factories := <[plugin_name := factory]> (factories reg);
     instances_made := instances_made reg |}.

Definition create (plugin_name : string) (reg : PluginRegistry)
    : (ConfigurationError + StageInstance) * PluginRegistry :=
  match factories reg !! plugin_name with
  | None => (inl (UnknownPluginName plugin_name), reg)
  | Some factory =>
      (inr {| instance_class := factory_class factory;
              instance_id := instances_made reg |},
       {| factories := factories reg;
          instances_made := S (instances_made reg) |})
  end.

(** [REGISTER(Base, Class, "name")]: the class registers a factory of
    itself under the name, with the class loader of its base class. *)
Definition REGISTER (class_name plugin_name : string) (reg : PluginRegistry)
    : PluginRegistry :=
  register plugin_name {| factory_class := class_name |} reg.

(** The decoder registry after [DummyTCPFrameDecoderLib.cpp] is loaded and
    the plugin registry after [BloscPlugin.h] is. *)
Definition decoder_registry : PluginRegistry :=
  REGISTER "DummyTCPFrameDecoder" "DummyTCPFrameDecoder" empty_registry.

Definition plugin_registry : PluginRegistry :=
  REGISTER "BloscPlugin" "BloscPlugin" empty_registry.

(** *** The Blosc compression plugin *)

(** [BloscCompressionSettings], [BloscPlugin.h].  [compression_level] is an
    [int], [shuffle] and [blosc_compressor] are [unsigned int], the sizes
    are [size_t]. *)
Record BloscCompressionSettings : Type := {
  compression_level : Z;
  shuffle : N;
  type_size : N;
  uncompressed_size : N;
  blosc_compressor : N
}.

(** Modelled from the spec: [Frame] is declared in [Frame.h], which is not
    part of the sources at hand.  The design description lists its
    metadata. *)
Record Frame : Type := {
  frame_index : Z;
  dataset_name : string;
  pixel_type : PixelType;
  dimensions : list N;
  compression_type : CompressionType;
  acquisition_id : string
}.

(** The member variables of [BloscPlugin] ([BloscPlugin.h]). *)
Record BloscPlugin : Type := {
  logger_ : option string;
  current_acquisition_ : string;
  compression_settings_ : BloscCompressionSettings;
  commanded_compression_settings_ : BloscCompressionSettings
}.

(** Modelled from the spec: [BloscPlugin::update_compression_settings] is
    declared in [BloscPlugin.h] and defined in [BloscPlugin.cpp], which is
    not part of the sources at hand.  The design description has the
    commanded settings take effect at the acquisition boundary, which is a
    change of the acquisition id.  The result is the reference to the
    current settings that the declaration returns. *)
Definition update_compression_settings (acquisition_id : string)
    (p : BloscPlugin) : BloscCompressionSettings * BloscPlugin :=
  if bool_decide (acquisition_id = current_acquisition_ p)
  then (compression_settings_ p, p)
  else (commanded_compression_settings_ p,
        {| logger_ := logger_ p;
           current_acquisition_ := acquisition_id;
           compression_settings_ := commanded_compression_settings_ p;
           commanded_compression_settings_ := commanded_compression_settings_ p |}).

(** Modelled from the spec: a settings change submitted through a parameter
    message is staged in the commanded settings.  The change is any update
    of the settings record. *)
Definition command_settings
    (change : BloscCompressionSettings -> BloscCompressionSettings)
    (p : BloscPlugin) : BloscPlugin :=
  {| logger_ := logger_ p;
     current_acquisition_ := current_acquisition_ p;
     compression_settings_ := compression_settings_ p;
     commanded_compression_settings_ :=
       change (commanded_compression_settings_ p) |}.

(** Modelled from the spec: [BloscPlugin::process_frame] compresses the
    frame with the settings that [update_compression_settings] returns for
    the frame's acquisition id.  The codec is opaque; what is kept of the
    compression is the settings it ran with. *)
Definition process_frame (frame : Frame) (p : BloscPlugin)
    : (Frame * BloscCompressionSettings) * BloscPlugin :=
  let '(settings, p') := update_compression_settings (acquisition_id frame) p in
  (({| frame_index := frame_index frame;
       dataset_name := dataset_name frame;
       pixel_type := pixel_type frame;
       dimensions := dimensions frame;
       compression_type := blosc;
       acquisition_id := acquisition_id frame |}, settings), p').

(** What reaches the plugin: settings changes and frames. *)
Inductive PluginEvent : Type :=
  | Command (change : BloscCompressionSettings -> BloscCompressionSettings)
  | Process (frame : Frame).

(** Runs the events in order; returns the compressed frames, each with the
    settings it was compressed with. *)
Fixpoint run_plugin (events : list PluginEvent) (p : BloscPlugin)
    : list (Frame * BloscCompressionSettings) * BloscPlugin :=
  match events with
  | [] => ([], p)
  | Command change :: events' => run_plugin events' (command_settings change p)
  | Process frame :: events' =>
      let '(out, p') := process_frame frame p in
      let '(outs, p'') := run_plugin events' p' in
      (out :: outs, p'')
  end.

(** Every frame among the events belongs to the acquisition. *)
Definition within_acquisition (acquisition : string)
    (events : list PluginEvent) : Prop :=
  Forall (fun ev => match ev with
                    | Command _ => True
                    | Process frame => acquisition_id frame = acquisition
                    end) events.

End FrameProcessor.

(** * Properties of the decoder base class *)

Module DecoderProperties.

Import OdinData FrameReceiver.

Lemma queue_empty_true (q : EmptyBufferQueue) :
  queue_empty q = true -> q = [].
Proof. destruct q; [reflexivity | discriminate]. Qed.

Lemma map_empty_true (m : FrameBufferMap) : map_empty m = true -> m = ∅.
Proof. unfold map_empty. intros H. exact (bool_decide_eq_true_1 _ H). Qed.

(** What [drop_all_buffers] leaves behind, field by field. *)
Lemma drop_all_buffers_state (d : FrameDecoder) :
  state_after (drop_all_buffers d) =
  set_frame_buffer_map ∅ (set_empty_buffer_queue [] d).
Proof.
  destruct d as [lg pl en tm td bm cb q m].
  unfold drop_all_buffers, mbind, Method_bind, this, when, LOG4CXX_INFO,
    LOG4CXX_WARN, emit, assign, mret, Method_ret, state_after,
    set_frame_buffer_map, set_empty_buffer_queue; simpl.
  destruct (queue_empty q) eqn:Hq; simpl;
    destruct (map_empty m) eqn:Hm; simpl;
    repeat match goal with
           | H : queue_empty _ = true |- _ => apply queue_empty_true in H; subst
           | H : map_empty _ = true |- _ => apply map_empty_true in H; subst
           end;
    reflexivity.
Qed.

(** C1: whatever the empty buffer queue and the frame buffer map hold,
    after [drop_all_buffers] both [get_num_empty_buffers] and
    [get_num_mapped_buffers] return 0. *)
Theorem drop_all_buffers_counts_zero (d : FrameDecoder) :
  get_num_empty_buffers (state_after (drop_all_buffers d)) = 0 /\
  get_num_mapped_buffers (state_after (drop_all_buffers d)) = 0.
Proof.
  rewrite drop_all_buffers_state.
  unfold get_num_empty_buffers, get_num_mapped_buffers, queue_size, map_size.
  simpl. split; [reflexivity | apply map_size_empty].
Qed.

(** C10: [drop_all_buffers] touches the two containers only: the timed-out
    frame counter, the frame timeout, the packet logging flag, the buffer
    manager and the frame-ready callback are what they were before. *)
Theorem drop_all_buffers_keeps_settings (d : FrameDecoder) :
  let d' := state_after (drop_all_buffers d) in
  get_num_frames_timedout d' = get_num_frames_timedout d /\
  get_frame_timeout_ms d' = get_frame_timeout_ms d /\
  enable_packet_logging_ d' = enable_packet_logging_ d /\
  buffer_manager_ d' = buffer_manager_ d /\
  ready_callback_ d' = ready_callback_ d.
Proof.
  cbv zeta. rewrite drop_all_buffers_state.
  unfold get_num_frames_timedout, get_frame_timeout_ms. simpl.
  repeat split.
Qed.

(** The loggers are kept too, and the callback is not called: the only
    effects are log lines. *)
Lemma drop_all_buffers_only_logs (d : FrameDecoder) :
  logger_ (state_after (drop_all_buffers d)) = logger_ d /\
  packet_logger_ (state_after (drop_all_buffers d)) = packet_logger_ d /\
  Forall (fun e => exists lvl msg, e = Log lvl (logger_ d) msg)
         (effects_of (drop_all_buffers d)).
Proof.
  rewrite drop_all_buffers_state. simpl. split; [reflexivity|].
  split; [reflexivity|].
  destruct d as [lg pl en tm td bm cb q m].
  unfold drop_all_buffers, mbind, Method_bind, this, when, LOG4CXX_INFO,
    LOG4CXX_WARN, emit, assign, mret, Method_ret, effects_of; simpl.
  destruct (queue_empty q); simpl; destruct (map_empty m); simpl;
    repeat constructor; eauto.
Qed.

(** Dropping a non-empty frame buffer map is reported as a warning. *)
Example drop_all_buffers_warns :
  effects_of (drop_all_buffers
    {| logger_ := Some "FR.DummyTCPFrameDecoder"; packet_logger_ := None;
       enable_packet_logging_ := false; frame_timeout_ms_ := 1000%N;
       frames_timedout_ := 0%N; buffer_manager_ := None;
       ready_callback_ := None; empty_buffer_queue_ := [4%Z; 7%Z];
       frame_buffer_map_ :=
         {[ 12%Z := {| entry_buffer_id := 3; entry_arrival_ms := 0;
                       entry_packets_received := 1 |} ]} |}) =
  [ Log INFO (Some "FR.DummyTCPFrameDecoder")
        "Dropping 2 buffers from empty buffer queue";
    Log WARN (Some "FR.DummyTCPFrameDecoder")
        "Dropping 1 unreleased buffers from decoder - possible data loss" ].
Proof. vm_compute. reflexivity. Qed.

(** *** The empty buffer queue *)

Lemma run_ops_app (ops1 ops2 : list QueueOp) (d : FrameDecoder) :
  run_ops (ops1 ++ ops2) d =
  (fst (run_ops ops1 d) ++ fst (run_ops ops2 (snd (run_ops ops1 d))),
   snd (run_ops ops2 (snd (run_ops ops1 d)))).
Proof.
  revert d. induction ops1 as [|op ops1 IH]; intros d; simpl.
  - destruct (run_ops ops2 d); reflexivity.
  - destruct op as [b|f t].
    + apply IH.
    + destruct (acquire_empty_buffer f t d) as [[b|] d'].
      * rewrite IH. destruct (run_ops ops1 d') as [got d'']. reflexivity.
      * apply IH.
Qed.

Lemma run_ops_pushes (ids : list Z) (d : FrameDecoder) :
  run_ops (map Push ids) d =
  ([], set_empty_buffer_queue (empty_buffer_queue_ d ++ ids) d).
Proof.
  revert d. induction ids as [|b ids IH]; intros d; simpl.
  - rewrite app_nil_r. destruct d; reflexivity.
  - rewrite IH. unfold push_empty_buffer, queue_push. simpl.
    rewrite <- app_assoc. reflexivity.
Qed.

Lemma run_ops_acquires (reqs : list (Z * Z)) (d : FrameDecoder) :
  fst (run_ops (map (fun r => Acquire (fst r) (snd r)) reqs) d) =
  take (length reqs) (empty_buffer_queue_ d).
Proof.
  revert d. induction reqs as [|[f t] reqs IH]; intros d; simpl.
  - reflexivity.
  - unfold acquire_empty_buffer.
    destruct (empty_buffer_queue_ d) as [|b rest] eqn:Hq.
    + rewrite IH, Hq. destruct (length reqs); reflexivity.
    + match goal with
      | |- context [run_ops ?o ?x] =>
          specialize (IH x); destruct (run_ops o x) as [got d'']
      end.
      simpl in *. rewrite IH. reflexivity.
Qed.

(** Nothing is lost and nothing is reordered: what was queued at the start
    followed by what was pushed is what was acquired followed by what is
    still queued. *)
Lemma run_ops_conservation (ops : list QueueOp) (d : FrameDecoder) :
  empty_buffer_queue_ d ++ pushed ops =
  fst (run_ops ops d) ++ empty_buffer_queue_ (snd (run_ops ops d)).
Proof.
  revert d. induction ops as [|op ops IH]; intros d; simpl.
  - apply app_nil_r.
  - destruct op as [b|f t]; simpl.
    + rewrite <- IH. unfold push_empty_buffer, queue_push. simpl.
      rewrite <- app_assoc. reflexivity.
    + unfold acquire_empty_buffer.
      destruct (empty_buffer_queue_ d) as [|b rest] eqn:Hq.
      * rewrite <- IH, Hq. reflexivity.
      * match goal with
        | |- context [run_ops ops ?x] =>
            specialize (IH x); destruct (run_ops ops x) as [got d'']
        end.
        simpl in *. rewrite <- IH. reflexivity.
Qed.

(** C6: buffers pushed with [push_empty_buffer] and then acquired come back
    in the order they were pushed, behind what was queued before. *)
Theorem empty_buffer_queue_fifo
    (ids : list Z) (reqs : list (Z * Z)) (d : FrameDecoder) :
  fst (run_ops (map Push ids ++ map (fun r => Acquire (fst r) (snd r)) reqs) d)
  = take (length reqs) (empty_buffer_queue_ d ++ ids).
Proof.
  rewrite run_ops_app, run_ops_pushes. simpl.
  rewrite run_ops_acquires. reflexivity.
Qed.

(** C7: [push_empty_buffer] raises [get_num_empty_buffers] by exactly one,
    and over any run of pushes and acquisitions the reported depth is the
    depth at the start plus the buffers pushed minus the buffers acquired
    (written with the acquired buffers added on the left). *)
Theorem push_empty_buffer_depth :
  (forall (buffer_id : Z) (d : FrameDecoder),
     get_num_empty_buffers (push_empty_buffer buffer_id d) =
     get_num_empty_buffers d + 1) /\
  (forall (ops : list QueueOp) (d : FrameDecoder),
     get_num_empty_buffers (snd (run_ops ops d))
       + length (fst (run_ops ops d)) =
     get_num_empty_buffers d + length (pushed ops)).
Proof.
  split.
  - intros b d. unfold get_num_empty_buffers, push_empty_buffer, queue_size,
      queue_push. simpl. rewrite length_app. reflexivity.
  - intros ops d. unfold get_num_empty_buffers, queue_size.
    pose proof (f_equal length (run_ops_conservation ops d)) as H.
    rewrite !length_app in H. lia.
Qed.

(** *** Configuration *)

Lemma get_param_present {T : Type} `{ParamType T}
    (msg : IpcMessage) (name : string) (v : ParamValue) (x dflt : T) :
  msg !! name = Some v -> of_param v = Some x -> get_param msg name dflt = x.
Proof. intros Hm Hv. unfold get_param. rewrite Hm, Hv. reflexivity. Qed.

Lemma get_param_absent {T : Type} `{ParamType T}
    (msg : IpcMessage) (name : string) (dflt : T) :
  msg !! name = None -> get_param msg name dflt = dflt.
Proof. intros Hm. unfold get_param. rewrite Hm. reflexivity. Qed.

Lemma init_enable_packet_logging (logger : LoggerPtr) (msg : IpcMessage)
    (d : FrameDecoder) :
  enable_packet_logging_ (init logger msg d) =
  get_param msg CONFIG_DECODER_ENABLE_PACKET_LOGGING (enable_packet_logging_ d).
Proof. reflexivity. Qed.

Lemma init_frame_timeout_ms (logger : LoggerPtr) (msg : IpcMessage)
    (d : FrameDecoder) :
  frame_timeout_ms_ (init logger msg d) =
  get_param msg CONFIG_DECODER_FRAME_TIMEOUT_MS (frame_timeout_ms_ d).
Proof. reflexivity. Qed.

(** C3: [init] takes [enable_packet_logging] and [frame_timeout_ms] from the
    configuration message when the key is there, and keeps the current
    value, which on the first [init] is the constructor's default, when it
    is not; the other keys of the message play no part. *)
Theorem init_reads_settings
    (logger : LoggerPtr) (config_msg : IpcMessage) (d : FrameDecoder) :
  (forall b : bool,
     config_msg !! CONFIG_DECODER_ENABLE_PACKET_LOGGING = Some (PBool b) ->
     enable_packet_logging_ (init logger config_msg d) = b) /\
  (config_msg !! CONFIG_DECODER_ENABLE_PACKET_LOGGING = None ->
     enable_packet_logging_ (init logger config_msg d) =
     enable_packet_logging_ d) /\
  (forall n : N,
     config_msg !! CONFIG_DECODER_FRAME_TIMEOUT_MS = Some (PUInt n) ->
     frame_timeout_ms_ (init logger config_msg d) = n) /\
  (config_msg !! CONFIG_DECODER_FRAME_TIMEOUT_MS = None ->
     frame_timeout_ms_ (init logger config_msg d) = frame_timeout_ms_ d) /\
  (forall (default_enable_packet_logging : bool) (default_frame_timeout_ms : N),
     let d0 := FrameDecoder_new default_enable_packet_logging
                 default_frame_timeout_ms in
     (config_msg !! CONFIG_DECODER_ENABLE_PACKET_LOGGING = None ->
        enable_packet_logging_ (init logger config_msg d0) =
        default_enable_packet_logging) /\
     (config_msg !! CONFIG_DECODER_FRAME_TIMEOUT_MS = None ->
        frame_timeout_ms_ (init logger config_msg d0) =
        default_frame_timeout_ms)) /\
  (forall other_msg : IpcMessage,
     other_msg !! CONFIG_DECODER_ENABLE_PACKET_LOGGING =
       config_msg !! CONFIG_DECODER_ENABLE_PACKET_LOGGING ->
     other_msg !! CONFIG_DECODER_FRAME_TIMEOUT_MS =
       config_msg !! CONFIG_DECODER_FRAME_TIMEOUT_MS ->
     enable_packet_logging_ (init logger other_msg d) =
       enable_packet_logging_ (init logger config_msg d) /\
     frame_timeout_ms_ (init logger other_msg d) =
       frame_timeout_ms_ (init logger config_msg d)).
Proof.
  repeat split.
  - intros b Hb. rewrite init_enable_packet_logging.
    apply (get_param_present _ _ _ _ _ Hb). reflexivity.
  - intros Hb. rewrite init_enable_packet_logging.
    apply get_param_absent, Hb.
  - intros n Hn. rewrite init_frame_timeout_ms.
    apply (get_param_present _ _ _ _ _ Hn). reflexivity.
  - intros Hn. rewrite init_frame_timeout_ms. apply get_param_absent, Hn.
  - intros Hb. rewrite init_enable_packet_logging.
    rewrite get_param_absent by exact Hb. reflexivity.
  - intros Hn. rewrite init_frame_timeout_ms.
    rewrite get_param_absent by exact Hn. reflexivity.
  - rewrite !init_enable_packet_logging. unfold get_param.
    match goal with H : _ !! CONFIG_DECODER_ENABLE_PACKET_LOGGING = _ |- _ =>
      rewrite H end. reflexivity.
  - rewrite !init_frame_timeout_ms. unfold get_param.
    match goal with H : _ !! CONFIG_DECODER_FRAME_TIMEOUT_MS = _ |- _ =>
      rewrite H end. reflexivity.
Qed.

(** A message that sets the packet logging flag, says nothing about the
    timeout and carries a key the decoder does not know. *)
Lemma init_reads_settings_witness :
  let msg : IpcMessage :=
    {[ "enable_packet_logging" := PBool true; "rx_ports" := PString "61649" ]} in
  let d := init (Some "FR.App") msg (FrameDecoder_new false 1000%N) in
  enable_packet_logging_ d = true /\ frame_timeout_ms_ d = 1000%N.
Proof.
  cbv zeta.
  pose proof (init_reads_settings (Some "FR.App")
    {[ "enable_packet_logging" := PBool true; "rx_ports" := PString "61649" ]}
    (FrameDecoder_new false 1000%N)) as (Hb & _ & _ & _ & Hnew & _).
  split.
  - apply Hb. vm_compute. reflexivity.
  - apply (Hnew false 1000%N). vm_compute. reflexivity.
Defined.

Lemma request_configuration_lookup (param_prefix name : string)
    (reply : IpcMessage) (d : FrameDecoder) (v : ParamValue) :
  request_configuration param_prefix reply d !! name = Some v ->
  v = PUInt (frame_timeout_ms_ d) \/ v = PBool (enable_packet_logging_ d) \/
  reply !! name = Some v.
Proof.
  unfold request_configuration, set_param. simpl.
  rewrite !lookup_insert_Some. intuition (subst; auto).
Qed.

(** C4, as stated, fails: asked by a decoder with 7 timed-out frames, the
    reply holds the two settings and none of the counters. *)
Lemma request_configuration_omits_counters :
  ~ reply_has_settings_and_counters "decoder/"
      (request_configuration "decoder/" ∅ busy_decoder) busy_decoder.
Proof.
  intros (_ & _ & (name & v & Hv & Hx) & _).
  apply request_configuration_lookup in Hv.
  destruct Hv as [-> | [-> | Hv]].
  - vm_compute in Hx. discriminate.
  - vm_compute in Hx. discriminate.
  - rewrite lookup_empty in Hv. discriminate.
Qed.

Lemma config_names_differ (param_prefix : string) :
  param_prefix +:+ CONFIG_DECODER_ENABLE_PACKET_LOGGING <>
  param_prefix +:+ CONFIG_DECODER_FRAME_TIMEOUT_MS.
Proof. intros H. apply (inj _) in H. discriminate. Qed.

(** C4, amended: [request_configuration] stores the two current settings in
    the reply under the prefixed names and leaves every other entry of the
    reply as it was. *)
Theorem request_configuration_reports_settings
    (param_prefix : string) (config_reply : IpcMessage) (d : FrameDecoder) :
  let reply := request_configuration param_prefix config_reply d in
  reply !! (param_prefix +:+ CONFIG_DECODER_ENABLE_PACKET_LOGGING) =
    Some (PBool (enable_packet_logging_ d)) /\
  reply !! (param_prefix +:+ CONFIG_DECODER_FRAME_TIMEOUT_MS) =
    Some (PUInt (frame_timeout_ms_ d)) /\
  (forall name : string,
     name <> param_prefix +:+ CONFIG_DECODER_ENABLE_PACKET_LOGGING ->
     name <> param_prefix +:+ CONFIG_DECODER_FRAME_TIMEOUT_MS ->
     reply !! name = config_reply !! name).
Proof.
  cbv zeta. unfold request_configuration, set_param. simpl.
  pose proof (config_names_differ param_prefix) as Hne.
  split; [|split].
  - rewrite lookup_insert_ne by (intros E; apply Hne; symmetry; exact E).
    apply lookup_insert_eq.
  - apply lookup_insert_eq.
  - intros name H1 H2.
    rewrite lookup_insert_ne by (intros E; apply H2; symmetry; exact E).
    rewrite lookup_insert_ne by (intros E; apply H1; symmetry; exact E).
    reflexivity.
Qed.

Lemma request_configuration_reports_settings_witness :
  request_configuration "decoder/" {[ "status" := PString "ok" ]} busy_decoder
    !! "status" = Some (PString "ok").
Proof.
  pose proof (request_configuration_reports_settings "decoder/"
    {[ "status" := PString "ok" ]} busy_decoder) as (_ & _ & Hother).
  rewrite Hother.
  - vm_compute. reflexivity.
  - vm_compute. discriminate.
  - vm_compute. discriminate.
Defined.

(** *** The dummy TCP decoder *)

(** [monitor_buffers] of the dummy TCP decoder has an empty body: it leaves
    the decoder as it is, the timed-out counter and the frame buffer map
    included, and it does not call the frame-ready callback. *)
Theorem monitor_buffers_does_nothing (d : DummyTCPFrameDecoder) :
  state_after (monitor_buffers d) = d /\
  effects_of (monitor_buffers d) = [] /\
  get_num_frames_timedout (base (state_after (monitor_buffers d))) =
    get_num_frames_timedout (base d) /\
  frame_buffer_map_ (base (state_after (monitor_buffers d))) =
    frame_buffer_map_ (base d).
Proof. repeat split. Qed.

(** The decoder as constructed, and its answer to a first message. *)
Example dummy_decoder_first_message :
  let d := state_after (DummyTCPFrameDecoder_new false 1000%N "1.0.0") in
  logger_ (base d) = Some "FR.DummyTCPFrameDecoder" /\
  get_num_empty_buffers (base d) = 0 /\
  result_of (process_message 30 d) = FrameReceiveStateComplete.
Proof. vm_compute. repeat split. Qed.

(** Status reporting by the dummy decoder adds nothing to the message. *)
Lemma get_status_adds_nothing (param_prefix : string)
    (status_msg : IpcMessage) (d : DummyTCPFrameDecoder) :
  get_status param_prefix status_msg d = status_msg.
Proof. reflexivity. Qed.

(** C5, as stated, fails: the dummy decoder answers the repeat of a message
    that completed a frame with complete again. *)
Lemma process_message_accepts_duplicate :
  ~ rejects_duplicate 30 busy_dummy_decoder.
Proof.
  unfold rejects_duplicate. cbv zeta. intros H.
  specialize (H eq_refl). discriminate H.
Qed.

(** C5, amended: [process_message] of the dummy TCP decoder returns complete
    for every message in every state, the repeat of an earlier message
    included, and changes nothing. *)
Theorem process_message_always_complete
    (bytes_received : N) (d : DummyTCPFrameDecoder) :
  result_of (process_message bytes_received d) = FrameReceiveStateComplete /\
  state_after (process_message bytes_received d) = d /\
  effects_of (process_message bytes_received d) = [] /\
  result_of (process_message bytes_received
               (state_after (process_message bytes_received d))) =
    FrameReceiveStateComplete.
Proof. repeat split. Qed.

End DecoderProperties.

(** * Properties of the frame processor *)

Module PluginProperties.

Import OdinData FrameProcessor.

Lemma create_unknown (plugin_name : string) (reg : PluginRegistry) :
  factories reg !! plugin_name = None ->
  create plugin_name reg = (inl (UnknownPluginName plugin_name), reg).
Proof. intros H. unfold create. rewrite H. reflexivity. Qed.

Lemma create_known (plugin_name : string) (factory : Factory)
    (reg : PluginRegistry) :
  factories reg !! plugin_name = Some factory ->
  create plugin_name reg =
  (inr {| instance_class := factory_class factory;
          instance_id := instances_made reg |},
   {| factories := factories reg;
      instances_made := S (instances_made reg) |}).
Proof. intros H. unfold create. rewrite H. reflexivity. Qed.

(** C8: [create] of a name the registry does not hold fails with
    [UnknownPluginName] and leaves the registry as it is; [create] of a
    registered name returns an instance of the registered class, keeps the
    registered names, and the instance differs from the one any later
    [create] returns. *)
Theorem create_unknown_or_new (plugin_name : string) (reg : PluginRegistry) :
  (factories reg !! plugin_name = None ->
     create plugin_name reg = (inl (UnknownPluginName plugin_name), reg)) /\
  (forall factory : Factory,
     factories reg !! plugin_name = Some factory ->
     exists (inst : StageInstance) (reg' : PluginRegistry),
       create plugin_name reg = (inr inst, reg') /\
       instance_class inst = factory_class factory /\
       factories reg' = factories reg /\
       forall (other_name : string) (inst' : StageInstance)
              (reg'' : PluginRegistry),
         create other_name reg' = (inr inst', reg'') -> inst' <> inst).
Proof.
  split.
  - apply create_unknown.
  - intros factory Hf. eexists _, _.
    split; [apply (create_known _ _ _ Hf)|].
    split; [reflexivity|]. split; [reflexivity|].
    intros other inst' reg'' Hc. unfold create in Hc. simpl in Hc.
    destruct (factories reg !! other); inversion Hc; subst.
    intros E. inversion E. lia.
Qed.

Lemma create_unknown_or_new_witness :
  create "UnknownName" decoder_registry =
    (inl (UnknownPluginName "UnknownName"), decoder_registry) /\
  exists (inst : StageInstance) (reg' : PluginRegistry),
    create "DummyTCPFrameDecoder" decoder_registry = (inr inst, reg') /\
    instance_class inst = "DummyTCPFrameDecoder".
Proof.
  split.
  - apply (create_unknown_or_new "UnknownName" decoder_registry).
    vm_compute. reflexivity.
  - destruct (create_unknown_or_new "DummyTCPFrameDecoder" decoder_registry)
      as [_ Hnew].
    destruct (Hnew {| factory_class := "DummyTCPFrameDecoder" |})
      as (inst & reg' & Hc & Hclass & _).
    + vm_compute. reflexivity.
    + exists inst, reg'. split; [exact Hc | exact Hclass].
Defined.

(** *** Compression settings *)

Lemma update_same_acquisition (p : BloscPlugin) :
  update_compression_settings (current_acquisition_ p) p =
  (compression_settings_ p, p).
Proof.
  unfold update_compression_settings.
  rewrite bool_decide_eq_true_2 by reflexivity. reflexivity.
Qed.

Lemma update_new_acquisition (acquisition : string) (p : BloscPlugin) :
  acquisition <> current_acquisition_ p ->
  update_compression_settings acquisition p =
  (commanded_compression_settings_ p,
   {| logger_ := logger_ p;
      current_acquisition_ := acquisition;
      compression_settings_ := commanded_compression_settings_ p;
      commanded_compression_settings_ := commanded_compression_settings_ p |}).
Proof.
  intros H. unfold update_compression_settings.
  rewrite bool_decide_eq_false_2 by exact H. reflexivity.
Qed.

(** After any frame, the plugin is in the frame's acquisition and the frame
    was compressed with the settings that are now current. *)
Lemma process_frame_current (frame : Frame) (p : BloscPlugin) :
  current_acquisition_ (snd (process_frame frame p)) = acquisition_id frame /\
  snd (fst (process_frame frame p)) =
    compression_settings_ (snd (process_frame frame p)).
Proof.
  unfold process_frame, update_compression_settings.
  destruct (bool_decide_reflect (acquisition_id frame = current_acquisition_ p))
    as [E|E]; simpl; auto.
Qed.

(** Inside an acquisition the current settings stay and every frame is
    compressed with them, whatever is commanded in between. *)
Lemma run_plugin_inside (acquisition : string) (events : list PluginEvent) :
  within_acquisition acquisition events ->
  forall p : BloscPlugin,
    current_acquisition_ p = acquisition ->
    Forall (fun out => snd out = compression_settings_ p)
           (fst (run_plugin events p)) /\
    compression_settings_ (snd (run_plugin events p)) =
      compression_settings_ p /\
    current_acquisition_ (snd (run_plugin events p)) = acquisition.
Proof.
  induction 1 as [|ev events Hev _ IH]; intros p Hp; simpl.
  - auto.
  - destruct ev as [change|frame].
    + apply (IH (command_settings change p)). exact Hp.
    + unfold process_frame. rewrite Hev, <- Hp, update_same_acquisition.
      destruct (run_plugin events p) as [outs p''] eqn:Hrun.
      destruct (IH p Hp) as (Hall & Hs & Hc). rewrite Hrun in *.
      simpl in *.
      split; [constructor; [reflexivity | exact Hall] |].
      split; [exact Hs | congruence].
Qed.

(** C9: within one acquisition id every frame is compressed with the same
    settings, whatever is commanded meanwhile, and these are the settings
    that were current when the acquisition was already running; the
    commanded settings become the current ones when, and only when, a frame
    with another acquisition id arrives. *)
Theorem compression_settings_change_at_boundary :
  (forall (acquisition : string) (events : list PluginEvent) (p : BloscPlugin),
     within_acquisition acquisition events ->
     exists settings : BloscCompressionSettings,
       Forall (fun out => snd out = settings) (fst (run_plugin events p))) /\
  (forall (acquisition : string) (events : list PluginEvent) (p : BloscPlugin),
     within_acquisition acquisition events ->
     current_acquisition_ p = acquisition ->
     Forall (fun out => snd out = compression_settings_ p)
            (fst (run_plugin events p)) /\
     compression_settings_ (snd (run_plugin events p)) =
       compression_settings_ p) /\
  (forall (frame : Frame) (p : BloscPlugin),
     acquisition_id frame <> current_acquisition_ p ->
     snd (fst (process_frame frame p)) = commanded_compression_settings_ p /\
     compression_settings_ (snd (process_frame frame p)) =
       commanded_compression_settings_ p /\
     current_acquisition_ (snd (process_frame frame p)) =
       acquisition_id frame) /\
  (forall (frame : Frame) (p : BloscPlugin),
     acquisition_id frame = current_acquisition_ p ->
     snd (fst (process_frame frame p)) = compression_settings_ p /\
     snd (process_frame frame p) = p) /\
  (forall (change : BloscCompressionSettings -> BloscCompressionSettings)
          (p : BloscPlugin),
     compression_settings_ (command_settings change p) =
       compression_settings_ p /\
     current_acquisition_ (command_settings change p) =
       current_acquisition_ p).
Proof.
  split; [|split; [|split; [|split]]].
  - intros acquisition events p Hin. revert p.
    induction Hin as [|ev events Hev Hrest IH]; intros p; simpl.
    + exists (compression_settings_ p). constructor.
    + destruct ev as [change|frame].
      * apply IH.
      * destruct (process_frame frame p) as [out p'] eqn:Hpf.
        pose proof (process_frame_current frame p) as [Hc Hs].
        rewrite Hpf in Hc, Hs. simpl in Hc, Hs.
        destruct (run_plugin_inside acquisition events Hrest p')
          as (Hall & _ & _); [congruence|].
        destruct (run_plugin events p') as [outs p''].
        exists (compression_settings_ p'). simpl in *.
        constructor; assumption.
  - intros acquisition events p Hin Hp.
    destruct (run_plugin_inside acquisition events Hin p Hp) as (H1 & H2 & _).
    auto.
  - intros frame p Hne. unfold process_frame.
    rewrite update_new_acquisition by exact Hne. simpl. auto.
  - intros frame p He. unfold process_frame.
    rewrite He, update_same_acquisition. simpl. auto.
  - intros change p. split; reflexivity.
Qed.

(** Level 1 is current and level 9 is commanded while acquisition [scan_7]
    starts; level 3 is commanded between its two frames. *)
Lemma compression_settings_change_at_boundary_witness :
  let s1 := {| compression_level := 1; shuffle := 1; type_size := 2;
               uncompressed_size := 0; blosc_compressor := 1 |} in
  let s9 := {| compression_level := 9; shuffle := 2; type_size := 2;
               uncompressed_size := 0; blosc_compressor := 1 |} in
  let frame i := {| frame_index := i; dataset_name := "data";
                    pixel_type := pixel_raw_16bit; dimensions := [2%N; 3%N];
                    compression_type := no_compression;
                    acquisition_id := "scan_7" |} in
  let p := {| logger_ := Some "FP.BloscPlugin"; current_acquisition_ := "";
              compression_settings_ := s1;
              commanded_compression_settings_ := s9 |} in
  let change s := {| compression_level := 3; shuffle := shuffle s;
                     type_size := type_size s;
                     uncompressed_size := uncompressed_size s;
                     blosc_compressor := blosc_compressor s |} in
  let events := [Process (frame 0%Z); Command change; Process (frame 1%Z)] in
  within_acquisition "scan_7" events /\
  exists settings : BloscCompressionSettings,
    Forall (fun out => snd out = settings) (fst (run_plugin events p)).
Proof.
  cbv zeta.
  assert (Hin : within_acquisition "scan_7"
    [Process {| frame_index := 0; dataset_name := "data";
                pixel_type := pixel_raw_16bit; dimensions := [2%N; 3%N];
                compression_type := no_compression;
                acquisition_id := "scan_7" |};
     Command (fun s => {| compression_level := 3; shuffle := shuffle s;
                          type_size := type_size s;
                          uncompressed_size := uncompressed_size s;
                          blosc_compressor := blosc_compressor s |});
     Process {| frame_index := 1; dataset_name := "data";
                pixel_type := pixel_raw_16bit; dimensions := [2%N; 3%N];
                compression_type := no_compression;
                acquisition_id := "scan_7" |}])
    by (repeat constructor).
  split; [exact Hin|].
  exact (proj1 compression_settings_change_at_boundary "scan_7" _ _ Hin).
Defined.

(** The two frames of the witness are both compressed at level 9, the level
    commanded before the acquisition started, not at level 3. *)
Example two_frames_one_level :
  let s1 := {| compression_level := 1; shuffle := 1; type_size := 2;
               uncompressed_size := 0; blosc_compressor := 1 |} in
  let s9 := {| compression_level := 9; shuffle := 2; type_size := 2;
               uncompressed_size := 0; blosc_compressor := 1 |} in
  let frame i := {| frame_index := i; dataset_name := "data";
                    pixel_type := pixel_raw_16bit; dimensions := [2%N; 3%N];
                    compression_type := no_compression;
                    acquisition_id := "scan_7" |} in
  let p := {| logger_ := Some "FP.BloscPlugin"; current_acquisition_ := "";
              compression_settings_ := s1;
              commanded_compression_settings_ := s9 |} in
  let change s := {| compression_level := 3; shuffle := shuffle s;
                     type_size := type_size s;
                     uncompressed_size := uncompressed_size s;
                     blosc_compressor := blosc_compressor s |} in
  map (fun out => compression_level (snd out))
      (fst (run_plugin [Process (frame 0%Z); Command change;
                        Process (frame 1%Z)] p)) = [9%Z; 9%Z].
Proof. vm_compute. reflexivity. Qed.

End PluginProperties.

(** * Further behaviour of the decoder *)

Module DecoderBehaviour.

Import OdinData FrameReceiver.

(** *** [drop_all_buffers] *)

Lemma map_empty_size (m : FrameBufferMap) :
  map_empty m = if decide (map_size m = 0) then true else false.
Proof.
  unfold map_empty, map_size. destruct (decide (size m = 0)) as [E|E].
  - apply bool_decide_eq_true_2. apply map_size_empty_iff. exact E.
  - apply bool_decide_eq_false_2. intros ->. apply E, map_size_empty.
Qed.

Lemma drop_all_buffers_effects (d : FrameDecoder) :
  effects_of (drop_all_buffers d) = drop_all_buffers_log d.
Proof.
  destruct d as [lg pl en tm td bm cb q m].
  pose proof (map_empty_size m) as Hm.
  unfold drop_all_buffers_log, get_num_empty_buffers, get_num_mapped_buffers,
    queue_size.
  unfold drop_all_buffers, mbind, Method_bind, this, when, LOG4CXX_INFO,
    LOG4CXX_WARN, emit, assign, mret, Method_ret, effects_of.
  cbn [empty_buffer_queue_ frame_buffer_map_ logger_ set_empty_buffer_queue
       fst snd].
  destruct q as [|b q]; cbn [queue_empty negb length];
    cbn [empty_buffer_queue_ frame_buffer_map_ logger_ set_empty_buffer_queue
         fst snd];
    rewrite Hm; destruct (decide (map_size m = 0)); reflexivity.
Qed.

(** X1: a second [drop_all_buffers] in a row changes nothing and logs
    nothing. *)
Theorem drop_all_buffers_idempotent (d : FrameDecoder) :
  let d1 := state_after (drop_all_buffers d) in
  state_after (drop_all_buffers d1) = d1 /\
  effects_of (drop_all_buffers d1) = [].
Proof.
  cbv zeta. split.
  - rewrite !DecoderProperties.drop_all_buffers_state. reflexivity.
  - rewrite drop_all_buffers_effects,
      DecoderProperties.drop_all_buffers_state.
    unfold drop_all_buffers_log, get_num_empty_buffers, get_num_mapped_buffers,
      queue_size, map_size. simpl.
    rewrite map_size_empty. reflexivity.
Qed.

(** X2: [drop_all_buffers] logs an INFO line with the number of queued
    buffers when there are any, then a WARN line with the number of mapped
    buffers when there are any, and nothing else; the warning is there
    exactly when buffers were mapped. *)
Theorem drop_all_buffers_logs (d : FrameDecoder) :
  effects_of (drop_all_buffers d) = drop_all_buffers_log d /\
  ((exists message : string,
      In (Log WARN (logger_ d) message) (effects_of (drop_all_buffers d))) <->
   get_num_mapped_buffers d <> 0).
Proof.
  split; [apply drop_all_buffers_effects|].
  rewrite drop_all_buffers_effects. unfold drop_all_buffers_log.
  destruct (decide (get_num_empty_buffers d = 0)) as [Hq|Hq];
    destruct (decide (get_num_mapped_buffers d = 0)) as [Hm|Hm]; simpl.
  - split; [intros (msg & []) | intros E; contradiction].
  - split; [intros _; exact Hm | intros _; eexists; left; reflexivity].
  - split; [intros (msg & [E|[]]); discriminate E | intros E; contradiction].
  - split; [intros _; exact Hm | intros _; eexists; right; left; reflexivity].
Qed.

(** *** [init] and [request_configuration] *)

Lemma get_param_idempotent {T : Type} `{ParamType T}
    (msg : IpcMessage) (param_name : string) (x : T) :
  get_param msg param_name (get_param msg param_name x) =
  get_param msg param_name x.
Proof.
  unfold get_param. destruct (msg !! param_name) as [v|]; [|reflexivity].
  destruct (of_param v); reflexivity.
Qed.

(** [init], field by field. *)
Lemma init_fields (logger : LoggerPtr) (config_msg : IpcMessage)
    (d : FrameDecoder) :
  init logger config_msg d =
  {| logger_ := logger;
     packet_logger_ := Some "FR.PacketLogger";
     enable_packet_logging_ :=
       get_param config_msg CONFIG_DECODER_ENABLE_PACKET_LOGGING
         (enable_packet_logging_ d);
     frame_timeout_ms_ :=
       get_param config_msg CONFIG_DECODER_FRAME_TIMEOUT_MS
         (frame_timeout_ms_ d);
     frames_timedout_ := frames_timedout_ d;
     buffer_manager_ := buffer_manager_ d;
     ready_callback_ := ready_callback_ d;
     empty_buffer_queue_ := empty_buffer_queue_ d;
     frame_buffer_map_ := frame_buffer_map_ d |}.
Proof. reflexivity. Qed.

(** X3: [init] with a message the decoder was already initialised with
    gives the same decoder as a single [init] with that message and the
    later logger. *)
Theorem init_idempotent (logger1 logger2 : LoggerPtr) (config_msg : IpcMessage)
    (d : FrameDecoder) :
  init logger2 config_msg (init logger1 config_msg d) =
  init logger2 config_msg d.
Proof.
  rewrite !init_fields.
  cbn [logger_ packet_logger_ enable_packet_logging_ frame_timeout_ms_
       frames_timedout_ buffer_manager_ ready_callback_ empty_buffer_queue_
       frame_buffer_map_].
  rewrite !get_param_idempotent. reflexivity.
Qed.

Lemma get_param_set_param {T : Type} `{ParamType T}
    (msg : IpcMessage) (param_name : string) (x dflt : T) :
  of_param (to_param x) = Some x ->
  get_param (set_param param_name x msg) param_name dflt = x.
Proof.
  intros Hrt. unfold get_param, set_param.
  rewrite lookup_insert_eq, Hrt. reflexivity.
Qed.

(** X4: what [request_configuration] writes, [get_param] reads back with
    the types that [init] uses, whatever the default; with an empty prefix
    [init] on the reply gives another decoder the settings of the one that
    replied. *)
Theorem request_configuration_read_back
    (param_prefix : string) (config_reply : IpcMessage) (d : FrameDecoder) :
  (forall dflt : bool,
     get_param (request_configuration param_prefix config_reply d)
       (param_prefix +:+ CONFIG_DECODER_ENABLE_PACKET_LOGGING) dflt =
     enable_packet_logging_ d) /\
  (forall dflt : N,
     get_param (request_configuration param_prefix config_reply d)
       (param_prefix +:+ CONFIG_DECODER_FRAME_TIMEOUT_MS) dflt =
     frame_timeout_ms_ d) /\
  (forall (logger : LoggerPtr) (d' : FrameDecoder),
     let d'' := init logger (request_configuration "" config_reply d) d' in
     enable_packet_logging_ d'' = enable_packet_logging_ d /\
     frame_timeout_ms_ d'' = frame_timeout_ms_ d).
Proof.
  assert (Hb : forall (prefix : string) (dflt : bool),
     get_param (request_configuration prefix config_reply d)
       (prefix +:+ CONFIG_DECODER_ENABLE_PACKET_LOGGING) dflt =
     enable_packet_logging_ d).
  { intros prefix dflt. unfold request_configuration, get_param, set_param.
    rewrite lookup_insert_ne
      by (intros E; apply (DecoderProperties.config_names_differ prefix);
          symmetry; exact E).
    rewrite lookup_insert_eq. reflexivity. }
  assert (Hn : forall (prefix : string) (dflt : N),
     get_param (request_configuration prefix config_reply d)
       (prefix +:+ CONFIG_DECODER_FRAME_TIMEOUT_MS) dflt =
     frame_timeout_ms_ d).
  { intros prefix dflt. unfold request_configuration.
    apply get_param_set_param. reflexivity. }
  split; [apply Hb|]. split; [apply Hn|].
  intros logger d'. cbv zeta. split.
  - exact (Hb "" (enable_packet_logging_ (set_logger logger d'))).
  - exact (Hn "" (frame_timeout_ms_ d')).
Qed.

(** X5: a reply filled twice under one prefix holds what the second
    decoder reported, nothing of the first. *)
Theorem request_configuration_overwrites
    (param_prefix : string) (config_reply : IpcMessage)
    (d1 d2 : FrameDecoder) :
  request_configuration param_prefix
    (request_configuration param_prefix config_reply d1) d2 =
  request_configuration param_prefix config_reply d2.
Proof.
  unfold request_configuration, set_param.
  cbn [to_param ParamType_bool ParamType_uint].
  apply map_eq. intros k. rewrite !lookup_insert.
  repeat case_decide; reflexivity.
Qed.

(** *** [push_empty_buffer] *)

(** X6: [push_empty_buffer] checks nothing: the id is queued once more
    than it was, also when it is queued already or mapped to a frame, and
    the other ids and the frame buffer map are as before. *)
Theorem push_empty_buffer_no_check (buffer_id : Z) (d : FrameDecoder) :
  count_occ Z.eq_dec (empty_buffer_queue_ (push_empty_buffer buffer_id d))
    buffer_id =
    S (count_occ Z.eq_dec (empty_buffer_queue_ d) buffer_id) /\
  (forall other : Z, other <> buffer_id ->
     count_occ Z.eq_dec (empty_buffer_queue_ (push_empty_buffer buffer_id d))
       other =
     count_occ Z.eq_dec (empty_buffer_queue_ d) other) /\
  frame_buffer_map_ (push_empty_buffer buffer_id d) = frame_buffer_map_ d.
Proof.
  unfold push_empty_buffer, queue_push. simpl. split; [|split].
  - rewrite count_occ_app. simpl.
    destruct (Z.eq_dec buffer_id buffer_id); [lia | contradiction].
  - intros other Hne. rewrite count_occ_app. simpl.
    destruct (Z.eq_dec buffer_id other); [congruence | lia].
  - reflexivity.
Qed.

(** *** Runs of calls *)

Lemma run_calls_step (c : DecoderCall) (calls : list DecoderCall)
    (d : DummyTCPFrameDecoder) :
  state_after (run_calls (c :: calls) d) =
    state_after (run_calls calls (state_after (call c d))) /\
  effects_of (run_calls (c :: calls) d) =
    effects_of (call c d) ++
    effects_of (run_calls calls (state_after (call c d))).
Proof.
  simpl. unfold mbind, Method_bind, state_after, effects_of.
  destruct (call c d) as [[u d1] e1]. simpl.
  destruct (run_calls calls d1) as [[u2 d2] e2]. simpl. auto.
Qed.

Lemma run_calls_app_state (calls1 calls2 : list DecoderCall)
    (d : DummyTCPFrameDecoder) :
  state_after (run_calls (calls1 ++ calls2) d) =
  state_after (run_calls calls2 (state_after (run_calls calls1 d))).
Proof.
  revert d. induction calls1 as [|c calls1 IH]; intros d.
  - reflexivity.
  - rewrite <- app_comm_cons.
    rewrite (proj1 (run_calls_step c (calls1 ++ calls2) d)).
    rewrite (proj1 (run_calls_step c calls1 d)). apply IH.
Qed.

(** The state a single call leaves. *)
Lemma call_state (c : DecoderCall) (d : DummyTCPFrameDecoder) :
  state_after (call c d) =
  match c with
  | CallInit logger config_msg => set_base (init logger config_msg (base d)) d
  | CallRegisterBufferManager m =>
      set_base (register_buffer_manager m (base d)) d
  | CallRegisterFrameReadyCallback cb =>
      set_base (register_frame_ready_callback cb (base d)) d
  | CallPushEmptyBuffer b => set_base (push_empty_buffer b (base d)) d
  | CallDropAllBuffers =>
      set_base (set_frame_buffer_map ∅ (set_empty_buffer_queue [] (base d))) d
  | CallGetNextMessageBuffer | CallProcessMessage _ | CallMonitorBuffers => d
  end.
Proof.
  destruct c; try reflexivity.
  unfold call, on_base.
  pose proof (DecoderProperties.drop_all_buffers_state (base d)) as H.
  unfold state_after in *.
  destruct (drop_all_buffers (base d)) as [[u b] e]. simpl in *.
  rewrite H. reflexivity.
Qed.

(** The effects of a single call. *)
Lemma call_effects (c : DecoderCall) (d : DummyTCPFrameDecoder) :
  effects_of (call c d) =
  match c with
  | CallDropAllBuffers => drop_all_buffers_log (base d)
  | CallGetNextMessageBuffer =>
      [Log INFO (logger_ (base d)) "get_next_message_buffer_ "]
  | _ => []
  end.
Proof.
  destruct c; try reflexivity.
  unfold call, on_base.
  pose proof (drop_all_buffers_effects (base d)) as H.
  unfold effects_of in *.
  destruct (drop_all_buffers (base d)) as [[u b] e]. simpl in *. exact H.
Qed.

(** X7: no call of the base class or of the dummy TCP decoder changes the
    timed-out frame counter or adds to the frame buffer map: after any run
    of calls the counter is what it was, and the map is what it was, or
    empty when [drop_all_buffers] was among the calls. *)
Theorem run_calls_counters (calls : list DecoderCall)
    (d : DummyTCPFrameDecoder) :
  let d' := state_after (run_calls calls d) in
  get_num_frames_timedout (base d') = get_num_frames_timedout (base d) /\
  frame_buffer_map_ (base d') =
    (if existsb is_drop calls then ∅ else frame_buffer_map_ (base d)) /\
  get_num_mapped_buffers (base d') <= get_num_mapped_buffers (base d).
Proof.
  cbv zeta.
  assert (H : get_num_frames_timedout (base (state_after (run_calls calls d)))
              = get_num_frames_timedout (base d) /\
              frame_buffer_map_ (base (state_after (run_calls calls d))) =
              (if existsb is_drop calls then ∅ else frame_buffer_map_ (base d))).
  { revert d. induction calls as [|c calls IH]; intros d.
    - split; reflexivity.
    - rewrite (proj1 (run_calls_step c calls d)).
      destruct (IH (state_after (call c d))) as [Ht Hm].
      rewrite Ht, Hm, call_state.
      destruct c; simpl; split; try reflexivity.
      destruct (existsb is_drop calls); reflexivity. }
  destruct H as [Ht Hm]. split; [exact Ht|]. split; [exact Hm|].
  unfold get_num_mapped_buffers, map_size. rewrite Hm.
  destruct (existsb is_drop calls); [rewrite map_size_empty; lia | lia].
Qed.

(** X8: the frame-ready callback is never called: whatever the calls, all
    they do outside the decoder is write log lines. *)
Theorem run_calls_only_log (calls : list DecoderCall)
    (d : DummyTCPFrameDecoder) :
  forallb is_log (effects_of (run_calls calls d)) = true.
Proof.
  revert d. induction calls as [|c calls IH]; intros d.
  - reflexivity.
  - rewrite (proj2 (run_calls_step c calls d)), forallb_app, IH,
      call_effects, andb_true_r.
    destruct c; try reflexivity.
    unfold drop_all_buffers_log.
    destruct (decide _); destruct (decide _); reflexivity.
Qed.

Lemma run_calls_queue_no_drop (calls : list DecoderCall) :
  existsb is_drop calls = false ->
  forall d : DummyTCPFrameDecoder,
    empty_buffer_queue_ (base (state_after (run_calls calls d))) =
    empty_buffer_queue_ (base d) ++ pushed_ids calls.
Proof.
  induction calls as [|c calls IH]; intros Hnd d.
  - simpl. rewrite app_nil_r. reflexivity.
  - simpl in Hnd. apply orb_false_elim in Hnd as [Hc Hnd].
    rewrite (proj1 (run_calls_step c calls d)), (IH Hnd), call_state.
    destruct c; try discriminate Hc; simpl; try reflexivity.
    unfold queue_push. rewrite <- app_assoc. reflexivity.
Qed.

(** X10: the empty buffer queue holds the buffers pushed since the last
    [drop_all_buffers], oldest first, behind what it held at the start when
    there was no [drop_all_buffers]; [init], the registrations and the calls
    of the dummy decoder take none of them. *)
Theorem run_calls_queue (before after : list DecoderCall)
    (d : DummyTCPFrameDecoder) :
  existsb is_drop after = false ->
  empty_buffer_queue_ (base (state_after (run_calls after d))) =
    empty_buffer_queue_ (base d) ++ pushed_ids after /\
  empty_buffer_queue_
    (base (state_after (run_calls (before ++ CallDropAllBuffers :: after) d)))
    = pushed_ids after.
Proof.
  intros Hnd. split; [apply run_calls_queue_no_drop, Hnd|].
  rewrite run_calls_app_state.
  rewrite (proj1 (run_calls_step CallDropAllBuffers after _)).
  rewrite (run_calls_queue_no_drop _ Hnd), call_state. reflexivity.
Qed.

Lemma run_calls_queue_witness :
  existsb is_drop [CallPushEmptyBuffer 5; CallGetNextMessageBuffer;
                   CallPushEmptyBuffer 6] = false /\
  empty_buffer_queue_
    (base (state_after
       (run_calls ([CallPushEmptyBuffer 1; CallProcessMessage 30] ++
                   CallDropAllBuffers ::
                   [CallPushEmptyBuffer 5; CallGetNextMessageBuffer;
                    CallPushEmptyBuffer 6])
          busy_dummy_decoder))) = [5%Z; 6%Z].
Proof.
  split; [reflexivity|].
  apply (run_calls_queue [CallPushEmptyBuffer 1; CallProcessMessage 30]
           [CallPushEmptyBuffer 5; CallGetNextMessageBuffer;
            CallPushEmptyBuffer 6] busy_dummy_decoder).
  reflexivity.
Defined.

Lemma last_cons_default {A : Type} (x y : A) (l : list A) :
  List.last (x :: l) y = List.last l x.
Proof.
  revert x y. induction l as [|z l IH]; intros x y; [reflexivity|].
  change (List.last (x :: z :: l) y) with (List.last (z :: l) y).
  rewrite (IH z y), (IH z x). reflexivity.
Qed.

(** X11: the callback and the buffer manager of a decoder are the ones
    registered last, or the ones it had when none was registered; [init],
    [push_empty_buffer], [drop_all_buffers] and the calls of the dummy
    decoder do not unregister them. *)
Theorem run_calls_registrations (calls : list DecoderCall)
    (d : DummyTCPFrameDecoder) :
  let d' := state_after (run_calls calls d) in
  ready_callback_ (base d') =
    List.last (registered_callbacks calls) (ready_callback_ (base d)) /\
  buffer_manager_ (base d') =
    List.last (registered_buffer_managers calls) (buffer_manager_ (base d)).
Proof.
  cbv zeta. revert d. induction calls as [|c calls IH]; intros d.
  - split; reflexivity.
  - rewrite (proj1 (run_calls_step c calls d)).
    destruct (IH (state_after (call c d))) as [Hc Hm].
    rewrite Hc, Hm, call_state.
    destruct c; split; try reflexivity;
      cbn [registered_callbacks registered_buffer_managers omap list_omap];
      rewrite last_cons_default; reflexivity.
Qed.

(** X12: only [init] changes the settings and the loggers: after a run of
    calls without [init] the packet logging flag, the frame timeout and the
    two loggers are what they were. *)
Theorem run_calls_settings (calls : list DecoderCall)
    (d : DummyTCPFrameDecoder) :
  existsb is_init calls = false ->
  let d' := state_after (run_calls calls d) in
  enable_packet_logging_ (base d') = enable_packet_logging_ (base d) /\
  get_frame_timeout_ms (base d') = get_frame_timeout_ms (base d) /\
  logger_ (base d') = logger_ (base d) /\
  packet_logger_ (base d') = packet_logger_ (base d).
Proof.
  cbv zeta. revert d. induction calls as [|c calls IH]; intros d Hni.
  - repeat split.
  - simpl in Hni. apply orb_false_elim in Hni as [Hc Hni].
    rewrite (proj1 (run_calls_step c calls d)).
    destruct (IH (state_after (call c d)) Hni) as (He & Ht & Hl & Hp).
    rewrite He, Ht, Hl, Hp, call_state.
    destruct c; try discriminate Hc; repeat split.
Qed.

Lemma run_calls_settings_witness :
  get_frame_timeout_ms
    (base (state_after
       (run_calls [CallPushEmptyBuffer 9; CallDropAllBuffers;
                   CallRegisterFrameReadyCallback (Some 3);
                   CallMonitorBuffers] busy_dummy_decoder))) = 1000%N.
Proof.
  apply (run_calls_settings
           [CallPushEmptyBuffer 9; CallDropAllBuffers;
            CallRegisterFrameReadyCallback (Some 3); CallMonitorBuffers]
           busy_dummy_decoder).
  reflexivity.
Defined.

End DecoderBehaviour.

(** * Frame timeouts *)

Module DecoderTimeouts.

Import OdinData FrameReceiver.
Import ProtocolEngine.








End DecoderTimeouts.
